(** * Toptica FemtoFiber laser driver (instrumental/drivers/lasers/femto_ferb.py)

    A shallow embedding of the driver and the properties of its
    command/response protocol.

    The driver is Python 2 code on top of the legacy PyVISA interface.  The
    calls it makes on that interface ([visa.instrument], [ask], [read],
    [close]) are kept as the nodes of a program tree; a transport, given as a
    record of state-passing functions over an arbitrary world, interprets
    them.  Every theorem about what is sent and what is returned therefore
    holds for every behaviour of the serial link. *)

From Stdlib Require Import ZArith Ascii String DecimalString.
From stdpp Require Import base strings list gmap.

Open Scope string_scope.

(** ** Python values *)

(** The values that reach the driver's arguments and results: [None],
    booleans, integers and byte strings. *)
Inductive pyval : Type :=
| PyNone
| PyBool (b : bool)
| PyInt (z : Z)
| PyStr (s : string).

#[global] Instance pyval_eq_dec : EqDecision pyval.
Proof. solve_decision. Defined.

(** The exceptions of the driver, and those of the transport. *)
Inductive exn : Type :=
| InstrumentTypeError
| KeyError (key : pyval)
| ValueError
| TypeError
| UnicodeEncodeError
| VisaIOError (detail : string).

#[global] Instance exn_eq_dec : EqDecision exn.
Proof. solve_decision. Defined.

Module Py.

(** [bool] is a subclass of [int]: [True] and [False] take part in
    numeric comparison as 1 and 0. *)
Definition as_number (v : pyval) : option Z :=
  match v with
  | PyBool b => Some (Z.b2z b)
  | PyInt z => Some z
  | PyNone | PyStr _ => None
  end.

(** [x == y]. *)
Definition eq (x y : pyval) : bool :=
  match x, y with
  | PyNone, PyNone => true
  | PyStr s, PyStr t => String.eqb s t
  | _, _ =>
      match as_number x, as_number y with
      | Some m, Some n => Z.eqb m n
      | _, _ => false
      end
  end.

(** [str(v)], which is what an empty replacement field formats. *)
Definition str (v : pyval) : string :=
  match v with
  | PyNone => "None"
  | PyBool true => "True"
  | PyBool false => "False"
  | PyInt z => NilZero.string_of_int (Z.to_int z)
  | PyStr s => s
  end.

(** [int(s)] on a decimal literal. *)
Definition int (s : string) : exn + Z :=
  match NilZero.int_of_string s with
  | Some d => inr (Z.of_int d)
  | None => inl ValueError
  end.

(** [template.format(arg)] for a template with one empty replacement
    field: the text of [arg] takes the place of the first [{}]. *)
Fixpoint substitute (template arg : string) : string :=
  match template with
  | String "{"%char (String "}"%char rest) => arg +:+ rest
  | String c rest => String c (substitute rest arg)
  | EmptyString => EmptyString
  end.

Definition format (template : string) (arg : pyval) : string :=
  substitute template (str arg).

(** A dictionary literal whose items are visited in a fixed order. *)
Definition dict (V : Type) : Type := list (string * V).

Definition iteritems {V} (d : dict V) : list (string * V) := d.

(** [d[key]]: the first item under [key], [KeyError] when there is none.
    A key that is not a string matches no item. *)
Fixpoint lookup_str {V} (d : dict V) (key : string) : option V :=
  match d with
  | [] => None
  | (k, v) :: rest => if String.eqb k key then Some v else lookup_str rest key
  end.

Definition getitem {V} (d : dict V) (key : pyval) : exn + V :=
  match key with
  | PyStr s =>
      match lookup_str d s with
      | Some v => inr v
      | None => inl (KeyError key)
      end
  | _ => inl (KeyError key)
  end.

End Py.

(** ** Module constants *)

Definition TRUE : string := "#t".
Definition FALSE : string := "#f".
Definition bool_dict : Py.dict bool := [("#t", true); ("#f", false)].

(** The line terminator passed to [read]. *)
Definition LF : string := String (ascii_of_nat 10) EmptyString.

(** ** Programs over the instrument interface *)

(** What [visa.instrument] returns: the resource the driver talks to. *)
Definition conn : Type := nat.

(** A driver method is a tree of calls on the instrument interface.  [ask]
    and [read] hand back the text the library returns, [visa.instrument]
    the new resource. *)
Inductive prog (A : Type) : Type :=
| Ret (a : A)
| Raise (e : exn)
| VisaInstrument (port : pyval) (k : conn → prog A)
| InstAsk (c : conn) (message : string) (k : string → prog A)
| InstRead (c : conn) (termination : string) (k : string → prog A)
| InstClose (c : conn) (k : prog A).

Arguments Ret {A} a.
Arguments Raise {A} e.
Arguments VisaInstrument {A} port k.
Arguments InstAsk {A} c message k.
Arguments InstRead {A} c termination k.
Arguments InstClose {A} c k.

Fixpoint bind {A B} (p : prog A) (f : A → prog B) : prog B :=
  match p with
  | Ret a => f a
  | Raise e => Raise e
  | VisaInstrument port k => VisaInstrument port (λ c, bind (k c) f)
  | InstAsk c m k => InstAsk c m (λ r, bind (k r) f)
  | InstRead c t k => InstRead c t (λ r, bind (k r) f)
  | InstClose c k => InstClose c (bind k f)
  end.

#[global] Instance prog_ret : MRet prog := @Ret.
#[global] Instance prog_bind : MBind prog := λ A B f p, bind p f.

(** A result that is a value or an exception, lifted into a program. *)
Definition lift {A} (r : exn + A) : prog A :=
  match r with
  | inl e => Raise e
  | inr a => Ret a
  end.

Definition visa_instrument (port : pyval) : prog conn := VisaInstrument port Ret.
Definition inst_ask (c : conn) (message : string) : prog string := InstAsk c message Ret.
Definition inst_read (c : conn) (termination : string) : prog string := InstRead c termination Ret.
Definition inst_close (c : conn) : prog unit := InstClose c (Ret tt).

(** ** The driver *)

Module FemtoFiber.

(** An instance holds the instrument it was opened on. *)
Record t : Type := Build { _inst : conn }.

Definition _ask (self : t) (message : string) (return_error : bool) : prog pyval :=
  _ ← inst_ask (_inst self) message;
  message ← inst_read (_inst self) LF;
  if return_error then
    let error := message in
    if String.eqb error "0" then
      error ← lift (Py.int error);
      mret (PyInt error)
    else mret (PyStr error)
  else mret (PyStr message).

(** The loop of [set_control] and [_set_emission]: every item of the table
    whose value compares equal to [control] replaces [control] by its key. *)
Definition encode (items : list (string * bool)) (control : pyval) : pyval :=
  fold_left
    (λ control '(key, item), if Py.eq (PyBool item) control then PyStr key else control)
    items control.

(** [bool_dict[message]] *)
Definition decode (message : pyval) : exn + bool := Py.getitem bool_dict message.

Definition is_control_on (self : t) : prog bool :=
  message ← _ask self "(param-ref hw-input-dis)" false;
  message ← lift (decode message);
  mret message.

Definition set_control (self : t) (control : pyval) : prog pyval :=
  let control := encode (Py.iteritems bool_dict) control in
  error ← _ask self (Py.format "(param-set! hw-input-dis {})" control) true;
  mret error.

Definition __init__ (port : pyval) : prog t :=
  inst ← visa_instrument port;
  let self := {| _inst := inst |} in
  set_control self (PyBool true);;
  mret self.

Definition is_on (self : t) : prog bool :=
  message ← _ask self "(param-ref laser:en)" false;
  message ← lift (decode message);
  mret message.

Definition _set_emission (self : t) (control : pyval) : prog pyval :=
  let control := encode (Py.iteritems bool_dict) control in
  error ← _ask self (Py.format "(param-set! laser:en {})" control) true;
  mret error.

Definition turn_on (self : t) : prog pyval := _set_emission self (PyBool true).

Definition turn_off (self : t) : prog pyval := _set_emission self (PyBool false).

Definition close (self : t) : prog unit := inst_close (_inst self).

End FemtoFiber.

(** The call of [FemtoFiber] on the unpacked dictionary [d]: its items become
    keyword arguments, and the constructor takes [port] and nothing else. *)
Definition FemtoFiber_kwargs (d : gmap string pyval) : prog FemtoFiber.t :=
  match d !! "port" with
  | Some port =>
      if decide (delete "port" d = ∅) then FemtoFiber.__init__ port else Raise TypeError
  | None => Raise TypeError
  end.

Definition _instrument (params : gmap string pyval) : prog FemtoFiber.t :=
  let d : gmap string pyval := ∅ in
  let d :=
    match params !! "femto_ferb_port" with
    | Some port => <["port" := port]> d
    | None => d
    end in
  if decide (d = ∅) then Raise InstrumentTypeError
  else FemtoFiber_kwargs d.

(** The methods of an instance that talk to the laser, as a caller names
    them; every one hands back a Python value. *)
Inductive method : Type :=
| IsControlOn
| SetControl (control : pyval)
| IsOn
| SetEmission (control : pyval)
| TurnOn
| TurnOff.

Definition invoke (self : FemtoFiber.t) (m : method) : prog pyval :=
  match m with
  | IsControlOn => b ← FemtoFiber.is_control_on self; mret (PyBool b)
  | SetControl control => FemtoFiber.set_control self control
  | IsOn => b ← FemtoFiber.is_on self; mret (PyBool b)
  | SetEmission control => FemtoFiber._set_emission self control
  | TurnOn => FemtoFiber.turn_on self
  | TurnOff => FemtoFiber.turn_off self
  end.

Definition is_query (m : method) : bool :=
  match m with
  | IsControlOn | IsOn => true
  | _ => false
  end.

Definition is_mutating (m : method) : bool := negb (is_query m).

(** The text a method hands to [_ask] as its message. *)
Definition command (m : method) : string :=
  match m with
  | IsControlOn => "(param-ref hw-input-dis)"
  | SetControl control =>
      Py.format "(param-set! hw-input-dis {})"
        (FemtoFiber.encode (Py.iteritems bool_dict) control)
  | IsOn => "(param-ref laser:en)"
  | SetEmission control =>
      Py.format "(param-set! laser:en {})"
        (FemtoFiber.encode (Py.iteritems bool_dict) control)
  | TurnOn =>
      Py.format "(param-set! laser:en {})"
        (FemtoFiber.encode (Py.iteritems bool_dict) (PyBool true))
  | TurnOff =>
      Py.format "(param-set! laser:en {})"
        (FemtoFiber.encode (Py.iteritems bool_dict) (PyBool false))
  end.

(** ** The transport *)

(** The serial link under the driver: each call of the instrument interface
    takes the world to a new world and either returns or raises. *)
Record transport (W : Type) : Type := Transport {
  tr_open : pyval → W → (exn + conn) * W;
  tr_ask : conn → string → W → (exn + string) * W;
  tr_read : conn → string → W → (exn + string) * W;
  tr_close : conn → W → (exn + unit) * W
}.

Arguments Transport {W}.
Arguments tr_open {W}.
Arguments tr_ask {W}.
Arguments tr_read {W}.
Arguments tr_close {W}.

(** The calls a run makes, in order. *)
Inductive event : Type :=
| EvOpen (port : pyval)
| EvAsk (c : conn) (message : string)
| EvRead (c : conn) (termination : string)
| EvClose (c : conn).

#[global] Instance event_eq_dec : EqDecision event.
Proof. solve_decision. Defined.

Record outcome (W A : Type) : Type := Outcome {
  calls : list event;
  result : exn + A;
  final : W
}.

Arguments Outcome {W A}.
Arguments calls {W A}.
Arguments result {W A}.
Arguments final {W A}.

Definition after {W A} (ev : event) (o : outcome W A) : outcome W A :=
  Outcome (ev :: calls o) (result o) (final o).

Section Run.
Context {W : Type} (tr : transport W).

(** One call: the exception of the transport ends the run, its return value
    feeds the rest of the program. *)
Definition step {A X} (ev : event) (r : (exn + X) * W) (rest : X → W → outcome W A)
  : outcome W A :=
  match r with
  | (inl e, w') => Outcome [ev] (inl e) w'
  | (inr x, w') => after ev (rest x w')
  end.

Fixpoint run {A} (p : prog A) (w : W) : outcome W A :=
  match p with
  | Ret a => Outcome [] (inr a) w
  | Raise e => Outcome [] (inl e) w
  | VisaInstrument port k => step (EvOpen port) (tr_open tr port w) (λ c, run (k c))
  | InstAsk c m k => step (EvAsk c m) (tr_ask tr c m w) (λ r, run (k r))
  | InstRead c t k => step (EvRead c t) (tr_read tr c t w) (λ r, run (k r))
  | InstClose c k => step (EvClose c) (tr_close tr c w) (λ _, run k)
  end.

(** Sequencing: the second program starts in the world the first one left,
    unless the first one raised. *)
Definition then_run {A B} (o : outcome W A) (f : A → prog B) : outcome W B :=
  match result o with
  | inl e => Outcome (calls o) (inl e) (final o)
  | inr a =>
      let o' := run (f a) (final o) in
      Outcome (calls o ++ calls o') (result o') (final o')
  end.

End Run.

(** The commands among the calls of a run. *)
Definition asked (evs : list event) : list string :=
  omap (λ ev, match ev with EvAsk _ m => Some m | _ => None end) evs.

(** The reads among the calls of a run, by their terminator. *)
Definition reads (evs : list event) : list string :=
  omap (λ ev, match ev with EvRead _ t => Some t | _ => None end) evs.

(** The outcome of one exchange on the connection [c], read off the
    transport: [ask] with the command, whose returned text is dropped, then
    [read] up to LF, whose line [k] turns into the result.  An exception of
    either call ends the exchange there. *)
Definition round_trip {W A} (tr : transport W) (c : conn) (cmd : string)
    (k : string → exn + A) (w : W) : outcome W A :=
  match tr_ask tr c cmd w with
  | (inl e, w1) => Outcome [EvAsk c cmd] (inl e) w1
  | (inr _, w1) =>
      match tr_read tr c LF w1 with
      | (inl e, w2) => Outcome [EvAsk c cmd; EvRead c LF] (inl e) w2
      | (inr r, w2) => Outcome [EvAsk c cmd; EvRead c LF] (k r) w2
      end
  end.

(** How a mutating method reports the line it read. *)
Definition error_of_line (r : string) : pyval :=
  if decide (r = "0") then PyInt 0 else PyStr r.

(** ** A scripted laser *)

(** A transport for concrete runs: it records what is written and answers
    each read with the next line of a script; a read on an exhausted script
    times out. *)
Module Scripted.

Record world : Type := World {
  written : list string;
  replies : list string
}.

Definition open (port : pyval) (w : world) : (exn + conn) * world := (inr 0, w).

Definition ask (c : conn) (message : string) (w : world) : (exn + string) * world :=
  (inr EmptyString, World (written w ++ [message]) (replies w)).

Definition read (c : conn) (termination : string) (w : world) : (exn + string) * world :=
  match replies w with
  | [] => (inl (VisaIOError "timeout"), w)
  | line :: rest => (inr line, World (written w) rest)
  end.

Definition close (c : conn) (w : world) : (exn + unit) * world := (inr tt, w).

Definition laser : transport world := Transport open ask read close.

Definition script (lines : list string) : world := World [] lines.

End Scripted.

(** The same laser behind an [ask] that is a write followed by a read, as
    the [ask] of the legacy PyVISA instrument is: [ask] itself takes the next
    line of the script and returns it, and times out when there is none. *)
Module Visa.

Definition ask (c : conn) (message : string) (w : Scripted.world)
  : (exn + string) * Scripted.world :=
  match Scripted.replies w with
  | [] => (inl (VisaIOError "timeout"), Scripted.World (Scripted.written w ++ [message]) [])
  | line :: rest => (inr line, Scripted.World (Scripted.written w ++ [message]) rest)
  end.

Definition laser : transport Scripted.world :=
  Transport Scripted.open ask Scripted.read Scripted.close.

End Visa.

(** The lines the laser gave up between two worlds. *)
Definition lines_taken (before after : Scripted.world) : nat :=
  length (Scripted.replies before) - length (Scripted.replies after).

Definition laser0 : FemtoFiber.t := FemtoFiber.Build 0.

(** ** The protocol as the specification words it *)

Module Spec.

(** The codec of the two wire tokens. *)
Definition encode (value : bool) : string := if value then "#t" else "#f".

Definition decode (token : string) : option bool :=
  if decide (token = "#t") then Some true
  else if decide (token = "#f") then Some false
  else None.

(** The outcome of a mutating command. *)
Inductive error_result : Type :=
| Success
| DeviceError (message : string).

Definition interpret (response : string) : error_result :=
  if decide (response = "0") then Success else DeviceError response.

(** The driver reports success as the integer 0 and a device error as the
    text the device sent. *)
Definition to_python (r : error_result) : pyval :=
  match r with
  | Success => PyInt 0
  | DeviceError message => PyStr message
  end.

(** One command out, one line back. *)
Definition exchange {A} (c : conn) (cmd : string) (k : string → exn + A) : prog A :=
  InstAsk c cmd (λ _, InstRead c LF (λ response, lift (k response))).

(** Set emission: the token of [control] goes out in a [laser:en] command
    and the response line is interpreted. *)
Definition set_emission (c : conn) (control : bool) : prog pyval :=
  exchange c ("(param-set! laser:en " +:+ encode control +:+ ")")
    (λ response, inr (to_python (interpret response))).

End Spec.

(** Two programs are observably equivalent when every transport, from every
    world, sees the same calls, gets the same result and is left in the
    same world. *)
Definition obs_equiv {A} (p q : prog A) : Prop :=
  ∀ W (tr : transport W) (w : W), run tr p w = run tr q w.

(** What a method makes of the line it reads. *)
Definition reply (m : method) (response : string) : exn + pyval :=
  if is_query m then
    match FemtoFiber.decode (PyStr response) with
    | inl e => inl e
    | inr b => inr (PyBool b)
    end
  else inr (Spec.to_python (Spec.interpret response)).

(** Case analysis on the next call of the transport in the goal. *)
Ltac next_call :=
  match goal with
  | |- context [step _ ?r _] =>
      let e := fresh "e" in
      let x := fresh "x" in
      let w' := fresh "w'" in
      destruct r as [[e | x] w'] eqn:?; cbn [step after calls result final]
  end.

Ltac by_cases_on_calls := repeat next_call; try reflexivity.

(** ** Arguments outside the documented type *)

(** [control] is documented as a bool, but Python lets a caller pass
    anything.  Beside the values above, an argument can be a unicode string
    (Python 2 [u'...']), given by its code points. *)
Inductive pyarg : Type :=
| Arg (v : pyval)
| ArgUnicode (codepoints : list N).

Module PyArg.

(** [item == control] for an item of the table: a boolean never compares
    equal to a unicode string. *)
Definition eq_bool (item : bool) (control : pyarg) : bool :=
  match control with
  | Arg v => Py.eq (PyBool item) v
  | ArgUnicode _ => false
  end.

(** The byte string of a unicode string under the ASCII codec, which has
    none when a code point is above 127. *)
Definition ascii_text (codepoints : list N) : option string :=
  if forallb (λ cp, cp <? 128)%N codepoints
  then Some (string_of_list_ascii (map ascii_of_N codepoints))
  else None.

(** [template.format(control)] on a byte-string template: the result is a
    byte string, so a unicode argument is encoded with the ASCII codec and
    [UnicodeEncodeError] is raised when that fails. *)
Definition format (template : string) (control : pyarg) : exn + string :=
  match control with
  | Arg v => inr (Py.format template v)
  | ArgUnicode codepoints =>
      match ascii_text codepoints with
      | Some text => inr (Py.substitute template text)
      | None => inl UnicodeEncodeError
      end
  end.

End PyArg.

(** [set_control] and [_set_emission] on these arguments: the same loop and
    the same call of [_ask], with the formatting of the command now able to
    raise. *)
Definition encode_arg (items : list (string * bool)) (control : pyarg) : pyarg :=
  fold_left
    (λ control '(key, item), if PyArg.eq_bool item control then Arg (PyStr key) else control)
    items control.

Definition set_control_arg (self : FemtoFiber.t) (control : pyarg) : prog pyval :=
  let control := encode_arg (Py.iteritems bool_dict) control in
  message ← lift (PyArg.format "(param-set! hw-input-dis {})" control);
  error ← FemtoFiber._ask self message true;
  mret error.

Definition _set_emission_arg (self : FemtoFiber.t) (control : pyarg) : prog pyval :=
  let control := encode_arg (Py.iteritems bool_dict) control in
  message ← lift (PyArg.format "(param-set! laser:en {})" control);
  error ← FemtoFiber._ask self message true;
  mret error.

(** A caller's script: methods called one after the other on one handle,
    their results collected; the first exception ends the script. *)
Fixpoint session (self : FemtoFiber.t) (ms : list method) : prog (list pyval) :=
  match ms with
  | [] => mret []
  | m :: rest =>
      v ← invoke self m;
      vs ← session self rest;
      mret (v :: vs)
  end.

(** A handle made by the factory and then closed. *)
Definition open_and_close (params : gmap string pyval) : prog unit :=
  laser ← _instrument params;
  FemtoFiber.close laser.

(** * Properties *)

(** ** Runs against the scripted laser *)

Example set_control_accepted :
  run Scripted.laser (FemtoFiber.set_control laser0 (PyBool true)) (Scripted.script ["0"])
    = Outcome [EvAsk 0 "(param-set! hw-input-dis #t)"; EvRead 0 LF] (inr (PyInt 0))
        (Scripted.World ["(param-set! hw-input-dis #t)"] []).
Proof. reflexivity. Qed.

Example turn_off_refused :
  run Scripted.laser (FemtoFiber.turn_off laser0) (Scripted.script ["12: overtemp"])
    = Outcome [EvAsk 0 "(param-set! laser:en #f)"; EvRead 0 LF] (inr (PyStr "12: overtemp"))
        (Scripted.World ["(param-set! laser:en #f)"] []).
Proof. reflexivity. Qed.

(** [True == 1]: the integer 1 is sent as [#t], and 2 as itself. *)
Example set_control_one_and_two :
  asked (calls (run Scripted.laser (FemtoFiber.set_control laser0 (PyInt 1))
                  (Scripted.script ["0"]))) = ["(param-set! hw-input-dis #t)"]
  ∧ asked (calls (run Scripted.laser (FemtoFiber.set_control laser0 (PyInt 2))
                    (Scripted.script ["0"]))) = ["(param-set! hw-input-dis 2)"].
Proof. split; reflexivity. Qed.

(** A silent laser: the exception of the transport comes out unchanged. *)
Example is_on_timeout :
  run Scripted.laser (FemtoFiber.is_on laser0) (Scripted.script [])
    = Outcome [EvAsk 0 "(param-ref laser:en)"; EvRead 0 LF] (inl (VisaIOError "timeout"))
        (Scripted.World ["(param-ref laser:en)"] []).
Proof. reflexivity. Qed.

Example factory_without_port :
  run Scripted.laser (_instrument (<["baud" := PyInt 9600]> ∅)) (Scripted.script ["0"])
    = Outcome [] (inl InstrumentTypeError) (Scripted.script ["0"]).
Proof. reflexivity. Qed.

Example close_releases :
  calls (run Scripted.laser (FemtoFiber.close laser0) (Scripted.script [])) = [EvClose 0].
Proof. reflexivity. Qed.

(** ** Values, formatting and the token table *)

Lemma py_int_zero : Py.int "0" = inr 0%Z.
Proof. reflexivity. Qed.

Lemma bool_dict_tokens : bool_dict = [(TRUE, true); (FALSE, false)].
Proof. reflexivity. Qed.



(** The loop over the two items, whichever of them comes first. *)
Lemma encode_cases (items : list (string * bool)) v :
  items = [("#t", true); ("#f", false)] ∨ items = [("#f", false); ("#t", true)] →
  FemtoFiber.encode items v =
    if Py.eq (PyBool true) v then PyStr "#t"
    else if Py.eq (PyBool false) v then PyStr "#f"
    else v.
Proof.
  intros [-> | ->]; unfold FemtoFiber.encode; cbn [fold_left].
  - destruct (Py.eq (PyBool true) v) eqn:Ht; [reflexivity|].
    destruct (Py.eq (PyBool false) v); reflexivity.
  - destruct v as [|[]|[|[]|]|s]; reflexivity.
Qed.

(** The order in which [iteritems] visits the table does not show. *)
Lemma encode_any_order (items : list (string * bool)) v :
  items ≡ₚ Py.iteritems bool_dict →
  FemtoFiber.encode items v = FemtoFiber.encode (Py.iteritems bool_dict) v.
Proof.
  intros Hp. symmetry in Hp.
  apply Permutation.Permutation_length_2_inv in Hp.
  rewrite (encode_cases items v), (encode_cases _ v); auto.
Qed.

Lemma encode_bool b :
  FemtoFiber.encode (Py.iteritems bool_dict) (PyBool b) = PyStr (Spec.encode b).
Proof. by destruct b. Qed.


Lemma decode_str (token : string) :
  FemtoFiber.decode (PyStr token) =
    match Spec.decode token with
    | Some b => inr b
    | None => inl (KeyError (PyStr token))
    end.
Proof.
  unfold FemtoFiber.decode, Spec.decode, Py.getitem, bool_dict, Py.lookup_str.
  destruct (String.eqb_spec "#t" token) as [<-|Ht].
  { by rewrite decide_True. }
  rewrite decide_False by done.
  destruct (String.eqb_spec "#f" token) as [<-|Hf].
  { by rewrite decide_True. }
  by rewrite decide_False.
Qed.

(** ** Runs *)

Section Protocol.
Context {W : Type} (tr : transport W).
Implicit Types (self : FemtoFiber.t) (w : W) (c : conn).

Lemma outcome_eta {A} (o : outcome W A) : Outcome (calls o) (result o) (final o) = o.
Proof. by destruct o. Qed.

Lemma then_run_after {A B} ev (o : outcome W A) (f : A → prog B) :
  then_run tr (after ev o) f = after ev (then_run tr o f).
Proof. unfold then_run, after; simpl. by destruct (result o). Qed.

Lemma run_bind {A B} (p : prog A) (f : A → prog B) w :
  run tr (p ≫= f) w = then_run tr (run tr p w) f.
Proof.
  unfold mbind, prog_bind. revert w.
  induction p as [a | e | port k IH | c m k IH | c t k IH | c k IH]; intros w; simpl.
  - unfold then_run; simpl. by rewrite outcome_eta.
  - reflexivity.
  - destruct (tr_open tr port w) as [[e | x] w']; simpl; [done|].
    by rewrite IH, then_run_after.
  - destruct (tr_ask tr c m w) as [[e | x] w']; simpl; [done|].
    by rewrite IH, then_run_after.
  - destruct (tr_read tr c t w) as [[e | x] w']; simpl; [done|].
    by rewrite IH, then_run_after.
  - destruct (tr_close tr c w) as [[e | x] w']; simpl; [done|].
    by rewrite IH, then_run_after.
Qed.

Lemma run_lift {A} (r : exn + A) w : run tr (lift r) w = Outcome [] r w.
Proof. by destruct r. Qed.

(** A run of one exchange, by what the transport does with the two
    calls. *)
Lemma run_exchange {A} c cmd (k : string → exn + A) w :
  run tr (Spec.exchange c cmd k) w =
    match tr_ask tr c cmd w with
    | (inl e, w1) => Outcome [EvAsk c cmd] (inl e) w1
    | (inr _, w1) =>
        match tr_read tr c LF w1 with
        | (inl e, w2) => Outcome [EvAsk c cmd; EvRead c LF] (inl e) w2
        | (inr r, w2) => Outcome [EvAsk c cmd; EvRead c LF] (k r) w2
        end
    end.
Proof.
  unfold Spec.exchange; simpl. by_cases_on_calls.
  rewrite run_lift. reflexivity.
Qed.

(** [_ask] is one exchange; with [return_error] the line "0" becomes the
    integer 0. *)
Lemma run_ask self message return_error w :
  run tr (FemtoFiber._ask self message return_error) w =
    run tr (Spec.exchange (FemtoFiber._inst self) message
              (λ r, inr (if return_error then Spec.to_python (Spec.interpret r)
                         else PyStr r))) w.
Proof.
  unfold FemtoFiber._ask, Spec.exchange; simpl. by_cases_on_calls.
  destruct return_error; [|reflexivity].
  unfold Spec.interpret.
  destruct (String.eqb_spec x0 "0") as [-> | Hne].
  - reflexivity.
  - by rewrite decide_False.
Qed.

Lemma run_invoke self m w :
  run tr (invoke self m) w =
    run tr (Spec.exchange (FemtoFiber._inst self) (command m) (reply m)) w.
Proof.
  destruct m; unfold invoke, FemtoFiber.is_control_on, FemtoFiber.is_on,
    FemtoFiber.turn_on, FemtoFiber.turn_off, FemtoFiber.set_control,
    FemtoFiber._set_emission, command, reply; cbn [is_query];
    rewrite !run_bind, run_ask, !run_exchange;
    destruct (tr_ask tr _ _ w) as [[e | a] w1]; try reflexivity;
    destruct (tr_read tr _ _ w1) as [[e | r] w2]; try reflexivity;
    unfold then_run; cbn [result calls final];
    rewrite ?run_bind, ?run_lift; unfold then_run; cbn [result calls final];
    try destruct (FemtoFiber.decode (PyStr r)); reflexivity.
Qed.

End Protocol.

(** ** Runs as round trips on the transport *)

Section RoundTrips.
Context {W : Type} (tr : transport W).
Implicit Types (self : FemtoFiber.t) (w : W) (c : conn).

Lemma run_round_trip {A} c cmd (k : string → exn + A) w :
  run tr (Spec.exchange c cmd k) w = round_trip tr c cmd k w.
Proof. apply run_exchange. Qed.

Lemma round_trip_ext {A} c cmd (k k' : string → exn + A) w :
  (∀ r, k r = k' r) → round_trip tr c cmd k w = round_trip tr c cmd k' w.
Proof.
  intros Hk. unfold round_trip.
  destruct (tr_ask tr c cmd w) as [[e | a] w1]; [done|].
  destruct (tr_read tr c LF w1) as [[e | r] w2]; [done|].
  by rewrite Hk.
Qed.


Lemma run_mutating self m w :
  is_mutating m = true →
  run tr (invoke self m) w =
    round_trip tr (FemtoFiber._inst self) (command m) (λ r, inr (error_of_line r)) w.
Proof.
  intros Hm. rewrite run_invoke, run_round_trip. apply round_trip_ext. intros r.
  unfold reply, is_mutating in *. destruct (is_query m); [done|].
  unfold error_of_line, Spec.interpret. by case_decide.
Qed.

End RoundTrips.

(** ** The token codec *)

(** C2. The codec of the two tokens is a bijection: [True] is encoded as
    [#t] and [False] as [#f], decoding the token of a boolean gives the
    boolean back, and a token decodes to a boolean exactly when that
    boolean is encoded as the token, so encoding what [#t] or [#f] decodes
    to gives the token back. *)
Theorem bool_codec_roundtrip (b : bool) (token : string) :
  FemtoFiber.encode (Py.iteritems bool_dict) (PyBool b) = PyStr (if b then "#t" else "#f")
  ∧ FemtoFiber.decode (FemtoFiber.encode (Py.iteritems bool_dict) (PyBool b)) = inr b
  ∧ (FemtoFiber.decode (PyStr token) = inr b
     ↔ FemtoFiber.encode (Py.iteritems bool_dict) (PyBool b) = PyStr token).
Proof.
  split; [by destruct b|]. split; [by destruct b|].
  rewrite decode_str, encode_bool. unfold Spec.decode, Spec.encode.
  split.
  - repeat case_decide; subst; intros [= <-]; reflexivity.
  - intros [= <-]. by destruct b.
Qed.

Lemma bool_codec_roundtrip_witness :
  (FemtoFiber.decode (PyStr "#t") = inr true
   ↔ FemtoFiber.encode (Py.iteritems bool_dict) (PyBool true) = PyStr "#t")
  ∧ (FemtoFiber.decode (PyStr "#f") = inr false
     ↔ FemtoFiber.encode (Py.iteritems bool_dict) (PyBool false) = PyStr "#f").
Proof.
  split.
  - exact (proj2 (proj2 (bool_codec_roundtrip true "#t"))).
  - exact (proj2 (proj2 (bool_codec_roundtrip false "#f"))).
Defined.

(** ** One exchange per method *)

Section Exchange.
Context {W : Type} (tr : transport W).
Implicit Types (self : FemtoFiber.t) (w : W) (c : conn).

Lemma calls_invoke self m w :
  calls (run tr (invoke self m) w) =
    match tr_ask tr (FemtoFiber._inst self) (command m) w with
    | (inl _, _) => [EvAsk (FemtoFiber._inst self) (command m)]
    | (inr _, _) =>
        [EvAsk (FemtoFiber._inst self) (command m); EvRead (FemtoFiber._inst self) LF]
    end.
Proof.
  rewrite run_invoke, run_exchange.
  destruct (tr_ask tr _ _ w) as [[e | a] w1]; [done|].
  by destruct (tr_read tr _ _ w1) as [[e | r] w2].
Qed.

Lemma asked_invoke self m w : asked (calls (run tr (invoke self m) w)) = [command m].
Proof.
  rewrite calls_invoke. by destruct (tr_ask tr _ _ w) as [[e | a] w1].
Qed.

(** C1. When the line that a mutating method ([set_control], [turn_on],
    [turn_off], [_set_emission]) reads is "0", the method returns the
    integer 0; for any other line it returns that line as a string, and
    does not raise. *)
Theorem mutating_response self m w a w1 r w2 :
  is_mutating m = true →
  tr_ask tr (FemtoFiber._inst self) (command m) w = (inr a, w1) →
  tr_read tr (FemtoFiber._inst self) LF w1 = (inr r, w2) →
  run tr (invoke self m) w =
    Outcome
      [EvAsk (FemtoFiber._inst self) (command m); EvRead (FemtoFiber._inst self) LF]
      (inr (if decide (r = "0") then PyInt 0 else PyStr r)) w2.
Proof.
  intros Hm Hask Hread.
  rewrite run_invoke, run_exchange, Hask, Hread.
  f_equal. unfold reply, is_mutating in *.
  destruct (is_query m); [done|].
  unfold Spec.interpret. by case_decide.
Qed.

(** C3. Every method of the handle that talks to the laser makes one
    [ask] call with its command and then one [read] call with the
    terminator LF on the connection, and no other call; when [ask] itself
    raises, the read is not made.  This counts the calls of the driver: the
    text that [ask] returns is dropped, and how many lines the laser gives
    up for the two calls is the transport's matter. *)
Theorem one_exchange_per_method self m w :
  let c := FemtoFiber._inst self in
  let o := run tr (invoke self m) w in
  asked (calls o) = [command m]
  ∧ reads (calls o) =
      match tr_ask tr c (command m) w with
      | (inl _, _) => []
      | (inr _, _) => [LF]
      end
  ∧ calls o =
      match tr_ask tr c (command m) w with
      | (inl _, _) => [EvAsk c (command m)]
      | (inr _, _) => [EvAsk c (command m); EvRead c LF]
      end.
Proof.
  cbv zeta. split; [apply asked_invoke|]. rewrite calls_invoke.
  by destruct (tr_ask tr _ _ w) as [[e | a] w1].
Qed.

End Exchange.

Lemma mutating_response_witness :
  let w := Scripted.script ["00"] in
  let m := SetControl (PyBool false) in
  is_mutating m = true
  ∧ tr_ask Scripted.laser 0 (command m) w
      = (inr EmptyString, Scripted.World ["(param-set! hw-input-dis #f)"] ["00"])
  ∧ run Scripted.laser (invoke laser0 m) w
      = Outcome [EvAsk 0 "(param-set! hw-input-dis #f)"; EvRead 0 LF]
          (inr (PyStr "00")) (Scripted.World ["(param-set! hw-input-dis #f)"] []).
Proof.
  split; [reflexivity|]. split; [reflexivity|].
  exact (mutating_response Scripted.laser laser0 (SetControl (PyBool false))
           (Scripted.script ["00"]) EmptyString
           (Scripted.World ["(param-set! hw-input-dis #f)"] ["00"]) "00"
           (Scripted.World ["(param-set! hw-input-dis #f)"] [])
           eq_refl eq_refl eq_refl).
Defined.

(** Behind an [ask] that is a write followed by a read, [is_on] takes two
    lines from the laser, not one: the first is the text [ask] returns and
    drops, the second is the one [read] returns and [is_on] decodes.  With
    one line only, that line is lost to [ask] and the read times out. *)
Lemma one_line_per_method_counterexample :
  let w := Scripted.script ["first line"; "#t"] in
  let o := run Visa.laser (FemtoFiber.is_on laser0) w in
  result o = inr true
  ∧ calls o = [EvAsk 0 "(param-ref laser:en)"; EvRead 0 LF]
  ∧ lines_taken w (final o) = 2
  ∧ lines_taken w (final o) ≠ 1
  ∧ result (run Visa.laser (FemtoFiber.is_on laser0) (Scripted.script ["#t"]))
      = inl (VisaIOError "timeout").
Proof. cbv zeta. repeat split; try reflexivity. discriminate. Qed.

(** ** Construction *)

(** The factory only looks at the port key. *)
Lemma _instrument_port (params : gmap string pyval) :
  _instrument params =
    match params !! "femto_ferb_port" with
    | Some port => FemtoFiber.__init__ port
    | None => Raise InstrumentTypeError
    end.
Proof.
  unfold _instrument. destruct (params !! "femto_ferb_port") as [port|].
  - rewrite decide_False by apply insert_non_empty.
    unfold FemtoFiber_kwargs.
    rewrite lookup_insert_eq, delete_insert_eq, delete_empty.
    by rewrite decide_True.
  - by rewrite decide_True.
Qed.

Section Construction.
Context {W : Type} (tr : transport W).
Implicit Types (w : W) (c : conn).

(** The constructor opens the port and then sets the hardware input
    control; what [set_control] returns is dropped. *)
Lemma run_init port w :
  run tr (FemtoFiber.__init__ port) w =
    match tr_open tr port w with
    | (inl e, w0) => Outcome [EvOpen port] (inl e) w0
    | (inr c, w0) =>
        let o := run tr (invoke (FemtoFiber.Build c) (SetControl (PyBool true))) w0 in
        Outcome (EvOpen port :: calls o)
          (match result o with
           | inl e => inl e
           | inr _ => inr (FemtoFiber.Build c)
           end)
          (final o)
    end.
Proof.
  unfold FemtoFiber.__init__, visa_instrument.
  cbn [mbind prog_bind bind run step].
  destruct (tr_open tr port w) as [[e | c] w0]; cbn [step]; [done|].
  change (bind ?p ?f) with (p ≫= f).
  rewrite run_bind. unfold then_run, after, invoke.
  destruct (result (run tr _ w0)); cbn [calls result final run]; [done|].
  by rewrite app_nil_r.
Qed.

(** C4. With the port key in the configuration, construction first opens
    the connection to that port and then sends
    [(param-set! hw-input-dis #t)] once, reads one line, and returns the
    handle whatever that line is. *)
Theorem construction_sets_control (params : gmap string pyval) port w c w0 a w1 r w2 :
  params !! "femto_ferb_port" = Some port →
  tr_open tr port w = (inr c, w0) →
  tr_ask tr c "(param-set! hw-input-dis #t)" w0 = (inr a, w1) →
  tr_read tr c LF w1 = (inr r, w2) →
  run tr (_instrument params) w =
    Outcome [EvOpen port; EvAsk c "(param-set! hw-input-dis #t)"; EvRead c LF]
      (inr (FemtoFiber.Build c)) w2.
Proof.
  intros Hport Hopen Hask Hread.
  rewrite _instrument_port, Hport, run_init, Hopen.
  cbv zeta. rewrite run_invoke, run_exchange.
  change (command (SetControl (PyBool true))) with "(param-set! hw-input-dis #t)".
  cbn [FemtoFiber._inst]. rewrite Hask, Hread. reflexivity.
Qed.

(** C5. Without the key [femto_ferb_port] the factory raises
    [InstrumentTypeError] and makes no call on the transport.  With the key
    its first call opens the connection to the value under that key; on the
    connection opened it makes the one exchange of [set_control(True)] and
    then returns one handle, the handle on that connection.  An exception of
    the open or of the exchange comes out instead of a handle.  Nothing
    else of the mapping is looked at. *)
Theorem factory_needs_port_key (params : gmap string pyval) w :
  run tr (_instrument params) w =
    match params !! "femto_ferb_port" with
    | None => Outcome [] (inl InstrumentTypeError) w
    | Some port =>
        match tr_open tr port w with
        | (inl e, w0) => Outcome [EvOpen port] (inl e) w0
        | (inr c, w0) =>
            after (EvOpen port)
              (round_trip tr c "(param-set! hw-input-dis #t)"
                 (λ _, inr (FemtoFiber.Build c)) w0)
        end
    end.
Proof.
  rewrite _instrument_port.
  destruct (params !! "femto_ferb_port") as [port|]; [|done].
  rewrite run_init.
  destruct (tr_open tr port w) as [[e | c] w0]; [done|]. cbv zeta.
  rewrite (run_mutating tr (FemtoFiber.Build c) (SetControl (PyBool true)) w0 eq_refl).
  change (command (SetControl (PyBool true))) with "(param-set! hw-input-dis #t)".
  cbn [FemtoFiber._inst]. unfold round_trip, after.
  destruct (tr_ask tr c _ w0) as [[e | a] w1]; [done|].
  by destruct (tr_read tr c LF w1) as [[e | r] w2].
Qed.

End Construction.

Lemma construction_sets_control_witness :
  let params : gmap string pyval :=
    <["femto_ferb_port" := PyStr "COM3"]> (<["baud" := PyInt 9600]> ∅) in
  let w := Scripted.script ["12: overtemp"] in
  params !! "femto_ferb_port" = Some (PyStr "COM3")
  ∧ run Scripted.laser (_instrument params) w
      = Outcome [EvOpen (PyStr "COM3"); EvAsk 0 "(param-set! hw-input-dis #t)"; EvRead 0 LF]
          (inr (FemtoFiber.Build 0))
          (Scripted.World ["(param-set! hw-input-dis #t)"] []).
Proof.
  split; [reflexivity|].
  exact (construction_sets_control Scripted.laser
           (<["femto_ferb_port" := PyStr "COM3"]> (<["baud" := PyInt 9600]> ∅))
           (PyStr "COM3") (Scripted.script ["12: overtemp"]) 0
           (Scripted.script ["12: overtemp"]) EmptyString
           (Scripted.World ["(param-set! hw-input-dis #t)"] ["12: overtemp"])
           "12: overtemp" (Scripted.World ["(param-set! hw-input-dis #t)"] [])
           eq_refl eq_refl eq_refl eq_refl).
Defined.

(** The port key is there and still no handle comes out: the laser stays
    silent, the read of the constructor times out and the factory raises. *)
Lemma factory_counterexample :
  let params : gmap string pyval := <["femto_ferb_port" := PyStr "COM3"]> ∅ in
  let o := run Scripted.laser (_instrument params) (Scripted.script []) in
  params !! "femto_ferb_port" = Some (PyStr "COM3")
  ∧ result o = inl (VisaIOError "timeout")
  ∧ ¬ ∃ laser, result o = inr laser.
Proof.
  cbv zeta. split; [reflexivity|]. split; [reflexivity|].
  intros [laser Hlaser]. vm_compute in Hlaser. discriminate Hlaser.
Qed.

(** ** Queries *)

Section Queries.
Context {W : Type} (tr : transport W).
Implicit Types (self : FemtoFiber.t) (w : W).

(** A query is one exchange whose line is looked up in the table. *)
Lemma run_query self cmd w :
  run tr (message ← FemtoFiber._ask self cmd false;
          message ← lift (FemtoFiber.decode message);
          mret message) w =
    run tr (Spec.exchange (FemtoFiber._inst self) cmd
              (λ r, FemtoFiber.decode (PyStr r))) w.
Proof.
  rewrite run_bind, run_ask, !run_exchange.
  destruct (tr_ask tr _ _ w) as [[e | a] w1]; [done|].
  destruct (tr_read tr _ _ w1) as [[e | r] w2]; [done|].
  unfold then_run; cbn [result calls final].
  rewrite run_bind, run_lift. unfold then_run; cbn [result calls final].
  by destruct (FemtoFiber.decode (PyStr r)).
Qed.

Lemma query_answer self cmd w a w1 r w2 :
  tr_ask tr (FemtoFiber._inst self) cmd w = (inr a, w1) →
  tr_read tr (FemtoFiber._inst self) LF w1 = (inr r, w2) →
  run tr (Spec.exchange (FemtoFiber._inst self) cmd (λ r, FemtoFiber.decode (PyStr r))) w =
    Outcome [EvAsk (FemtoFiber._inst self) cmd; EvRead (FemtoFiber._inst self) LF]
      (FemtoFiber.decode (PyStr r)) w2.
Proof. intros Hask Hread. by rewrite run_exchange, Hask, Hread. Qed.

(** C6. When the line read is neither [#t] nor [#f], [is_control_on] and
    [is_on] raise the [KeyError] of the table lookup on that line, after
    the one exchange and with nothing sent again. *)
Theorem query_unrecognized_token self w r :
  r ≠ "#t" → r ≠ "#f" →
  (∀ a w1 w2,
     tr_ask tr (FemtoFiber._inst self) "(param-ref hw-input-dis)" w = (inr a, w1) →
     tr_read tr (FemtoFiber._inst self) LF w1 = (inr r, w2) →
     run tr (FemtoFiber.is_control_on self) w =
       Outcome [EvAsk (FemtoFiber._inst self) "(param-ref hw-input-dis)";
                EvRead (FemtoFiber._inst self) LF]
         (inl (KeyError (PyStr r))) w2)
  ∧ (∀ a w1 w2,
       tr_ask tr (FemtoFiber._inst self) "(param-ref laser:en)" w = (inr a, w1) →
       tr_read tr (FemtoFiber._inst self) LF w1 = (inr r, w2) →
       run tr (FemtoFiber.is_on self) w =
         Outcome [EvAsk (FemtoFiber._inst self) "(param-ref laser:en)";
                  EvRead (FemtoFiber._inst self) LF]
           (inl (KeyError (PyStr r))) w2).
Proof.
  intros Ht Hf.
  assert (FemtoFiber.decode (PyStr r) = inl (KeyError (PyStr r))) as Hdec.
  { rewrite decode_str. unfold Spec.decode. by rewrite !decide_False. }
  split; intros a w1 w2 Hask Hread.
  - unfold FemtoFiber.is_control_on.
    by rewrite run_query, (query_answer _ _ _ _ _ _ _ Hask Hread), Hdec.
  - unfold FemtoFiber.is_on.
    by rewrite run_query, (query_answer _ _ _ _ _ _ _ Hask Hread), Hdec.
Qed.

(** C8. [is_on] sends [(param-ref laser:en)] and [is_control_on] sends
    [(param-ref hw-input-dis)]; each reads one line and returns [True]
    exactly when the line is [#t] and [False] exactly when it is [#f]. *)
Theorem query_decodes_response self w r :
  (∀ a w1 w2,
     tr_ask tr (FemtoFiber._inst self) "(param-ref laser:en)" w = (inr a, w1) →
     tr_read tr (FemtoFiber._inst self) LF w1 = (inr r, w2) →
     let o := run tr (FemtoFiber.is_on self) w in
     calls o = [EvAsk (FemtoFiber._inst self) "(param-ref laser:en)";
                EvRead (FemtoFiber._inst self) LF]
     ∧ (result o = inr true ↔ r = "#t")
     ∧ (result o = inr false ↔ r = "#f"))
  ∧ (∀ a w1 w2,
       tr_ask tr (FemtoFiber._inst self) "(param-ref hw-input-dis)" w = (inr a, w1) →
       tr_read tr (FemtoFiber._inst self) LF w1 = (inr r, w2) →
       let o := run tr (FemtoFiber.is_control_on self) w in
       calls o = [EvAsk (FemtoFiber._inst self) "(param-ref hw-input-dis)";
                  EvRead (FemtoFiber._inst self) LF]
       ∧ (result o = inr true ↔ r = "#t")
       ∧ (result o = inr false ↔ r = "#f")).
Proof.
  assert (FemtoFiber.decode (PyStr r) = inr true ↔ r = "#t") as Htrue.
  { rewrite decode_str. unfold Spec.decode.
    repeat case_decide; subst; split; try done; intros [=]. }
  assert (FemtoFiber.decode (PyStr r) = inr false ↔ r = "#f") as Hfalse.
  { rewrite decode_str. unfold Spec.decode.
    repeat case_decide; subst; split; try done; intros [=]. }
  split; intros a w1 w2 Hask Hread; cbv zeta.
  - unfold FemtoFiber.is_on.
    rewrite run_query, (query_answer _ _ _ _ _ _ _ Hask Hread).
    cbn [calls result]. by split.
  - unfold FemtoFiber.is_control_on.
    rewrite run_query, (query_answer _ _ _ _ _ _ _ Hask Hread).
    cbn [calls result]. by split.
Qed.

End Queries.

Lemma query_unrecognized_token_witness :
  run Scripted.laser (FemtoFiber.is_control_on laser0) (Scripted.script ["on"])
    = Outcome [EvAsk 0 "(param-ref hw-input-dis)"; EvRead 0 LF]
        (inl (KeyError (PyStr "on"))) (Scripted.World ["(param-ref hw-input-dis)"] [])
  ∧ run Scripted.laser (FemtoFiber.is_on laser0) (Scripted.script ["on"])
      = Outcome [EvAsk 0 "(param-ref laser:en)"; EvRead 0 LF]
          (inl (KeyError (PyStr "on"))) (Scripted.World ["(param-ref laser:en)"] []).
Proof.
  assert ("on" ≠ "#t") as Ht by discriminate.
  assert ("on" ≠ "#f") as Hf by discriminate.
  destruct (query_unrecognized_token Scripted.laser laser0 (Scripted.script ["on"]) "on" Ht Hf)
    as [Hcontrol Hon].
  split.
  - exact (Hcontrol EmptyString (Scripted.World ["(param-ref hw-input-dis)"] ["on"])
             (Scripted.World ["(param-ref hw-input-dis)"] []) eq_refl eq_refl).
  - exact (Hon EmptyString (Scripted.World ["(param-ref laser:en)"] ["on"])
             (Scripted.World ["(param-ref laser:en)"] []) eq_refl eq_refl).
Defined.

Lemma query_decodes_response_witness :
  result (run Scripted.laser (FemtoFiber.is_on laser0) (Scripted.script ["#t"])) = inr true
  ∧ result (run Scripted.laser (FemtoFiber.is_control_on laser0) (Scripted.script ["#f"]))
      = inr false.
Proof.
  split.
  - destruct (query_decodes_response Scripted.laser laser0 (Scripted.script ["#t"]) "#t")
      as [Hon _].
    destruct (Hon EmptyString (Scripted.World ["(param-ref laser:en)"] ["#t"])
                (Scripted.World ["(param-ref laser:en)"] []) eq_refl eq_refl)
      as (_ & Htrue & _).
    exact (proj2 Htrue eq_refl).
  - destruct (query_decodes_response Scripted.laser laser0 (Scripted.script ["#f"]) "#f")
      as [_ Hcontrol].
    destruct (Hcontrol EmptyString (Scripted.World ["(param-ref hw-input-dis)"] ["#f"])
                (Scripted.World ["(param-ref hw-input-dis)"] []) eq_refl eq_refl)
      as (_ & _ & Hfalse).
    exact (proj2 Hfalse eq_refl).
Defined.

(** ** Commands of the mutating methods *)

(** C7. [turn_on] is observably [_set_emission] with [True], and that is the
    emission-set exchange of the specification on the token [#t]: the
    command [(param-set! laser:en #t)], one line read, "0" reported as 0 and
    any other line as itself.  Likewise [turn_off] with [False] and
    [(param-set! laser:en #f)]. *)
Theorem turn_on_off_refine_set_emission (self : FemtoFiber.t) :
  (obs_equiv (FemtoFiber.turn_on self) (FemtoFiber._set_emission self (PyBool true))
   ∧ obs_equiv (FemtoFiber._set_emission self (PyBool true))
       (Spec.set_emission (FemtoFiber._inst self) true)
   ∧ ∀ W (tr : transport W) w,
       asked (calls (run tr (FemtoFiber.turn_on self) w)) = ["(param-set! laser:en #t)"])
  ∧ (obs_equiv (FemtoFiber.turn_off self) (FemtoFiber._set_emission self (PyBool false))
     ∧ obs_equiv (FemtoFiber._set_emission self (PyBool false))
         (Spec.set_emission (FemtoFiber._inst self) false)
     ∧ ∀ W (tr : transport W) w,
         asked (calls (run tr (FemtoFiber.turn_off self) w)) = ["(param-set! laser:en #f)"]).
Proof.
  split; (split; [|split]); intros W tr w.
  - reflexivity.
  - exact (run_invoke tr self (SetEmission (PyBool true)) w).
  - exact (asked_invoke tr self TurnOn w).
  - reflexivity.
  - exact (run_invoke tr self (SetEmission (PyBool false)) w).
  - exact (asked_invoke tr self TurnOff w).
Qed.

Section Commands.
Context {W : Type} (tr : transport W).
Implicit Types (self : FemtoFiber.t) (w : W).

(** C9. [set_control(True)] sends [(param-set! hw-input-dis #t)] and
    [set_control(False)] sends [(param-set! hw-input-dis #f)], and nothing
    else is sent. *)
Theorem set_control_command self w :
  asked (calls (run tr (FemtoFiber.set_control self (PyBool true)) w))
    = ["(param-set! hw-input-dis #t)"]
  ∧ asked (calls (run tr (FemtoFiber.set_control self (PyBool false)) w))
      = ["(param-set! hw-input-dis #f)"].
Proof.
  split.
  - exact (asked_invoke tr self (SetControl (PyBool true)) w).
  - exact (asked_invoke tr self (SetControl (PyBool false)) w).
Qed.


End Commands.


(** On the values of the model the methods on wider arguments are the
    methods themselves. *)
Lemma encode_arg_plain (items : list (string * bool)) (v : pyval) :
  encode_arg items (Arg v) = Arg (FemtoFiber.encode items v).
Proof.
  revert v. induction items as [| [key item] items IH]; intros v; [done|].
  unfold encode_arg, FemtoFiber.encode in *. cbn [fold_left PyArg.eq_bool].
  by destruct (Py.eq (PyBool item) v); rewrite IH.
Qed.

Lemma set_control_arg_plain (self : FemtoFiber.t) (v : pyval) :
  set_control_arg self (Arg v) = FemtoFiber.set_control self v
  ∧ _set_emission_arg self (Arg v) = FemtoFiber._set_emission self v.
Proof.
  unfold set_control_arg, _set_emission_arg. by rewrite encode_arg_plain.
Qed.

(** A unicode string with a code point above 127 compares equal to no
    item of the table and cannot be formatted into the command. *)
Lemma unicode_argument_raises {W} (tr : transport W) (self : FemtoFiber.t)
    (codepoints : list N) (w : W) :
  PyArg.ascii_text codepoints = None →
  run tr (set_control_arg self (ArgUnicode codepoints)) w
    = Outcome [] (inl UnicodeEncodeError) w
  ∧ run tr (_set_emission_arg self (ArgUnicode codepoints)) w
      = Outcome [] (inl UnicodeEncodeError) w.
Proof.
  intros Hnone. unfold set_control_arg, _set_emission_arg, encode_arg.
  cbn [Py.iteritems bool_dict fold_left PyArg.eq_bool PyArg.format].
  by rewrite Hnone.
Qed.


(** * Further properties of the driver *)

(** ** Exceptions of the transport *)

Section Failures.
Context {W : Type} (tr : transport W).
Implicit Types (self : FemtoFiber.t) (w : W).

(** X1. When [ask] raises, every method raises the same exception: the
    command was the only call made, no [read] follows and nothing is
    returned. *)
Theorem ask_exception_propagates self m w e w1 :
  tr_ask tr (FemtoFiber._inst self) (command m) w = (inl e, w1) →
  run tr (invoke self m) w = Outcome [EvAsk (FemtoFiber._inst self) (command m)] (inl e) w1.
Proof. intros Hask. by rewrite run_invoke, run_exchange, Hask. Qed.

(** X2. When the command went out and [read] raises (a timeout, say), every
    method raises that exception unchanged; a query does not turn it into a
    [KeyError] and a mutating method does not return it as an error
    string. *)
Theorem read_exception_propagates self m w a w1 e w2 :
  tr_ask tr (FemtoFiber._inst self) (command m) w = (inr a, w1) →
  tr_read tr (FemtoFiber._inst self) LF w1 = (inl e, w2) →
  run tr (invoke self m) w =
    Outcome [EvAsk (FemtoFiber._inst self) (command m); EvRead (FemtoFiber._inst self) LF]
      (inl e) w2.
Proof. intros Hask Hread. by rewrite run_invoke, run_exchange, Hask, Hread. Qed.

(** X3. Whatever the transport does, a mutating method that returns hands
    back the integer 0 or a string other than "0": the string "0", a
    boolean and [None] never come out of it. *)
Theorem mutating_result_shape self m w v :
  is_mutating m = true →
  result (run tr (invoke self m) w) = inr v →
  v = PyInt 0 ∨ ∃ s, v = PyStr s ∧ s ≠ "0".
Proof.
  intros Hm. rewrite run_invoke, run_exchange.
  destruct (tr_ask tr _ _ w) as [[e | a] w1]; [done|].
  destruct (tr_read tr _ _ w1) as [[e | r] w2]; [done|].
  cbn [result]. unfold reply, is_mutating in *.
  destruct (is_query m); [done|].
  unfold Spec.interpret. intros [= <-].
  case_decide; [by left | right; eauto].
Qed.

(** X4. Whatever the transport does, a query that returns hands back a
    boolean, and it returns only after a read: there is no default answer
    when the laser stays silent. *)
Theorem query_result_shape self m w v :
  is_query m = true →
  result (run tr (invoke self m) w) = inr v →
  (∃ b, v = PyBool b)
  ∧ calls (run tr (invoke self m) w)
      = [EvAsk (FemtoFiber._inst self) (command m); EvRead (FemtoFiber._inst self) LF].
Proof.
  intros Hm. rewrite run_invoke, run_exchange.
  destruct (tr_ask tr _ _ w) as [[e | a] w1]; [done|].
  destruct (tr_read tr _ _ w1) as [[e | r] w2]; [done|].
  cbn [result calls]. unfold reply. rewrite Hm.
  destruct (FemtoFiber.decode (PyStr r)); [done|].
  intros [= <-]. eauto.
Qed.

(** X5. [_ask] without [return_error] hands back the line as it was read,
    for any message: the line "0" stays the string "0" there, and becomes
    the integer 0 only with [return_error]. *)
Theorem ask_returns_line self message return_error w a w1 r w2 :
  tr_ask tr (FemtoFiber._inst self) message w = (inr a, w1) →
  tr_read tr (FemtoFiber._inst self) LF w1 = (inr r, w2) →
  result (run tr (FemtoFiber._ask self message return_error) w) =
    inr (if return_error && bool_decide (r = "0") then PyInt 0 else PyStr r).
Proof.
  intros Hask Hread. rewrite run_ask, run_exchange, Hask, Hread. cbn [result].
  destruct return_error; [|done]. unfold Spec.interpret. cbn [andb].
  by case_bool_decide; [rewrite decide_True | rewrite decide_False].
Qed.

(** X6. [close] makes one [close] call on the instrument of the handle and
    sends and reads nothing; an exception of that call comes out
    unchanged. *)
Theorem close_only_closes self w :
  let o := run tr (FemtoFiber.close self) w in
  calls o = [EvClose (FemtoFiber._inst self)]
  ∧ asked (calls o) = [] ∧ reads (calls o) = []
  ∧ result o = fst (tr_close tr (FemtoFiber._inst self) w)
  ∧ final o = snd (tr_close tr (FemtoFiber._inst self) w).
Proof.
  cbv zeta. unfold FemtoFiber.close, inst_close. cbn [run step].
  by destruct (tr_close tr _ w) as [[e | []] w1].
Qed.

End Failures.

(** ** The argument of the mutating methods *)

(** X7. The loop gives the same result whichever of the two items of the
    table [iteritems] visits first: [#t] for an argument equal to [True],
    [#f] for one equal to [False], the argument itself otherwise. *)
Theorem encode_order_independent (items : list (string * bool)) (v : pyval) :
  items ≡ₚ Py.iteritems bool_dict →
  FemtoFiber.encode items v =
    if Py.eq (PyBool true) v then PyStr "#t"
    else if Py.eq (PyBool false) v then PyStr "#f"
    else v.
Proof.
  intros Hp. symmetry in Hp.
  apply Permutation.Permutation_length_2_inv in Hp.
  apply encode_cases. destruct Hp; auto.
Qed.

Section Arguments.
Context {W : Type} (tr : transport W).
Implicit Types (self : FemtoFiber.t) (w : W).

(** X8. An argument that compares equal to a boolean is sent as the token
    of that boolean: [set_control] and [_set_emission] on an integer 1 run
    as on [True], on an integer 0 as on [False]. *)
Theorem equal_to_bool_sent_as_token self (v : pyval) (b : bool) w :
  Py.eq (PyBool b) v = true →
  run tr (FemtoFiber.set_control self v) w
    = run tr (FemtoFiber.set_control self (PyBool b)) w
  ∧ run tr (FemtoFiber._set_emission self v) w
      = run tr (FemtoFiber._set_emission self (PyBool b)) w.
Proof.
  intros Heq.
  assert (FemtoFiber.encode (Py.iteritems bool_dict) v
          = FemtoFiber.encode (Py.iteritems bool_dict) (PyBool b)) as Henc.
  { rewrite !encode_cases by auto.
    destruct b, v as [|[]|[|[]|]|s]; solve [reflexivity | discriminate Heq]. }
  unfold FemtoFiber.set_control, FemtoFiber._set_emission.
  by rewrite Henc.
Qed.

(** X9. Passing the token itself is the same as passing the boolean: the
    strings [#t] and [#f] go through the loop unchanged, so
    [set_control("#t")] runs as [set_control(True)]; and encoding what the
    loop produced changes nothing. *)
Theorem token_argument_passes self (b : bool) (v : pyval) w :
  run tr (FemtoFiber.set_control self (PyStr (Spec.encode b))) w
    = run tr (FemtoFiber.set_control self (PyBool b)) w
  ∧ FemtoFiber.encode (Py.iteritems bool_dict)
      (FemtoFiber.encode (Py.iteritems bool_dict) v)
    = FemtoFiber.encode (Py.iteritems bool_dict) v.
Proof.
  split.
  - unfold FemtoFiber.set_control. by destruct b.
  - rewrite !encode_cases by auto.
    destruct v as [|[]|[|[]|]|s]; reflexivity.
Qed.

End Arguments.

Lemma encode_order_independent_witness :
  FemtoFiber.encode [("#f", false); ("#t", true)] (PyInt 1) = PyStr "#t".
Proof.
  exact (encode_order_independent [("#f", false); ("#t", true)] (PyInt 1)
           (perm_swap ("#t", true) ("#f", false) [])).
Defined.

Lemma equal_to_bool_sent_as_token_witness :
  Py.eq (PyBool true) (PyInt 1) = true
  ∧ asked (calls (run Scripted.laser (FemtoFiber.set_control laser0 (PyInt 1))
                    (Scripted.script ["0"])))
      = ["(param-set! hw-input-dis #t)"].
Proof.
  split; [reflexivity|].
  rewrite (proj1 (equal_to_bool_sent_as_token Scripted.laser laser0 (PyInt 1) true
                    (Scripted.script ["0"]) eq_refl)).
  reflexivity.
Defined.

(** ** Construction that fails, and the life of a handle *)

Section Lifecycle.
Context {W : Type} (tr : transport W).
Implicit Types (w : W) (c : conn).

(** X10. When opening the port raises, the factory raises that exception;
    the open was its only call and no command is sent. *)
Theorem open_exception_aborts_construction (params : gmap string pyval) port w e w0 :
  params !! "femto_ferb_port" = Some port →
  tr_open tr port w = (inl e, w0) →
  run tr (_instrument params) w = Outcome [EvOpen port] (inl e) w0.
Proof.
  intros Hport Hopen. by rewrite _instrument_port, Hport, run_init, Hopen.
Qed.

(** X11. A device error string is dropped by the constructor, an exception
    is not: when the exchange of [set_control(True)] raises on the opened
    connection, the factory raises the same exception and yields no handle.
    In no case does the factory close the connection it opened. *)
Theorem init_exception_aborts_construction (params : gmap string pyval) port w c w0 e :
  params !! "femto_ferb_port" = Some port →
  tr_open tr port w = (inr c, w0) →
  result (run tr (FemtoFiber.set_control (FemtoFiber.Build c) (PyBool true)) w0) = inl e →
  let o := run tr (_instrument params) w in
  result o = inl e
  ∧ asked (calls o) = ["(param-set! hw-input-dis #t)"]
  ∧ ∀ c', EvClose c' ∉ calls o.
Proof.
  intros Hport Hopen Hset. cbv zeta.
  rewrite _instrument_port, Hport, run_init, Hopen. cbv zeta.
  change (invoke (FemtoFiber.Build c) (SetControl (PyBool true)))
    with (FemtoFiber.set_control (FemtoFiber.Build c) (PyBool true)).
  cbn [result calls]. rewrite Hset. split; [done|].
  change (FemtoFiber.set_control (FemtoFiber.Build c) (PyBool true))
    with (invoke (FemtoFiber.Build c) (SetControl (PyBool true))).
  split.
  - cbn [asked omap list_omap]. apply (asked_invoke tr (FemtoFiber.Build c)).
  - intros c'. rewrite calls_invoke.
    destruct (tr_ask tr _ _ w0) as [[e' | a] w1];
      rewrite ?elem_of_cons, elem_of_nil; intros Hin;
      repeat (destruct Hin as [Hin | Hin]; [discriminate Hin|]); exact Hin.
Qed.

(** X12. A handle made by the factory and then closed: the connection
    closed is the one that was opened, after the one exchange of the
    constructor, and these four calls are all that happen. *)
Theorem open_and_close_pairs (params : gmap string pyval) port w c w0 a w1 r w2 w3 :
  params !! "femto_ferb_port" = Some port →
  tr_open tr port w = (inr c, w0) →
  tr_ask tr c "(param-set! hw-input-dis #t)" w0 = (inr a, w1) →
  tr_read tr c LF w1 = (inr r, w2) →
  tr_close tr c w2 = (inr tt, w3) →
  run tr (open_and_close params) w =
    Outcome [EvOpen port; EvAsk c "(param-set! hw-input-dis #t)"; EvRead c LF; EvClose c]
      (inr tt) w3.
Proof.
  intros Hport Hopen Hask Hread Hclose.
  unfold open_and_close.
  rewrite run_bind, _instrument_port, Hport, run_init, Hopen. cbv zeta.
  rewrite run_invoke, run_exchange.
  change (command (SetControl (PyBool true))) with "(param-set! hw-input-dis #t)".
  cbn [FemtoFiber._inst]. rewrite Hask, Hread.
  unfold then_run, reply, FemtoFiber.close, inst_close.
  cbn [is_query result calls final run step FemtoFiber._inst].
  by rewrite Hclose.
Qed.

End Lifecycle.

Lemma open_exception_aborts_construction_witness :
  let refusing : transport Scripted.world :=
    Transport (λ _ w, (inl (VisaIOError "no such port"), w))
      Scripted.ask Scripted.read Scripted.close in
  let params : gmap string pyval := <["femto_ferb_port" := PyStr "COM9"]> ∅ in
  run refusing (_instrument params) (Scripted.script ["0"])
    = Outcome [EvOpen (PyStr "COM9")] (inl (VisaIOError "no such port"))
        (Scripted.script ["0"]).
Proof.
  exact (open_exception_aborts_construction
           (Transport (λ _ w, (inl (VisaIOError "no such port"), w))
              Scripted.ask Scripted.read Scripted.close)
           (<["femto_ferb_port" := PyStr "COM9"]> ∅) (PyStr "COM9")
           (Scripted.script ["0"]) (VisaIOError "no such port") (Scripted.script ["0"])
           eq_refl eq_refl).
Defined.

Lemma init_exception_aborts_construction_witness :
  let params : gmap string pyval := <["femto_ferb_port" := PyStr "COM3"]> ∅ in
  result (run Scripted.laser (_instrument params) (Scripted.script []))
    = inl (VisaIOError "timeout")
  ∧ EvClose 0 ∉ calls (run Scripted.laser (_instrument params) (Scripted.script [])).
Proof.
  assert ((<["femto_ferb_port" := PyStr "COM3"]> ∅ : gmap string pyval)
            !! "femto_ferb_port" = Some (PyStr "COM3")) as Hport by reflexivity.
  destruct (init_exception_aborts_construction Scripted.laser
              (<["femto_ferb_port" := PyStr "COM3"]> ∅) (PyStr "COM3")
              (Scripted.script []) 0 (Scripted.script []) (VisaIOError "timeout")
              Hport eq_refl eq_refl) as (Hres & _ & Hclose).
  split; [exact Hres | exact (Hclose 0)].
Defined.

Lemma open_and_close_pairs_witness :
  let params : gmap string pyval := <["femto_ferb_port" := PyStr "COM3"]> ∅ in
  run Scripted.laser (open_and_close params) (Scripted.script ["0"])
    = Outcome [EvOpen (PyStr "COM3"); EvAsk 0 "(param-set! hw-input-dis #t)";
               EvRead 0 LF; EvClose 0]
        (inr tt) (Scripted.World ["(param-set! hw-input-dis #t)"] []).
Proof.
  exact (open_and_close_pairs Scripted.laser
           (<["femto_ferb_port" := PyStr "COM3"]> ∅) (PyStr "COM3")
           (Scripted.script ["0"]) 0 (Scripted.script ["0"]) EmptyString
           (Scripted.World ["(param-set! hw-input-dis #t)"] ["0"]) "0"
           (Scripted.World ["(param-set! hw-input-dis #t)"] [])
           (Scripted.World ["(param-set! hw-input-dis #t)"] [])
           eq_refl eq_refl eq_refl eq_refl eq_refl).
Defined.

(** ** Methods called one after the other *)

Lemma asked_app (evs evs' : list event) : asked (evs ++ evs') = (asked evs ++ asked evs')%list.
Proof. apply omap_app. Qed.

Lemma reads_app (evs evs' : list event) : reads (evs ++ evs') = (reads evs ++ reads evs')%list.
Proof. apply omap_app. Qed.

Section Sessions.
Context {W : Type} (tr : transport W).
Implicit Types (self : FemtoFiber.t) (w : W) (ms : list method).

(** A method that returns has made both calls of its exchange. *)
Lemma calls_of_returning_invoke self m w v :
  result (run tr (invoke self m) w) = inr v →
  calls (run tr (invoke self m) w)
    = [EvAsk (FemtoFiber._inst self) (command m); EvRead (FemtoFiber._inst self) LF].
Proof.
  rewrite run_invoke, run_exchange.
  destruct (tr_ask tr _ _ w) as [[e | a] w1]; [done|].
  by destruct (tr_read tr _ _ w1) as [[e | r] w2].
Qed.

Lemma run_session_cons self m ms w :
  run tr (session self (m :: ms)) w =
    let o1 := run tr (invoke self m) w in
    match result o1 with
    | inl e => Outcome (calls o1) (inl e) (final o1)
    | inr v =>
        let o2 := run tr (session self ms) (final o1) in
        Outcome (calls o1 ++ calls o2)
          (match result o2 with
           | inl e => inl e
           | inr vs => inr (v :: vs)
           end)
          (final o2)
    end.
Proof.
  cbn [session]. rewrite run_bind. unfold then_run. cbv zeta.
  destruct (result (run tr (invoke self m) w)) as [e | v]; [done|].
  rewrite run_bind. unfold then_run.
  destruct (result (run tr (session self ms) _)) as [e | vs]; cbn [calls result final run].
  - reflexivity.
  - by rewrite app_nil_r.
Qed.

(** What a sequence of method calls has sent is always a prefix of the
    commands of its calls. *)
Lemma session_sends_prefix self ms w :
  asked (calls (run tr (session self ms) w)) `prefix_of` map command ms.
Proof.
  revert w. induction ms as [| m ms IH]; intros w.
  - by exists [].
  - rewrite run_session_cons. cbv zeta.
    pose proof (asked_invoke tr self m w) as Hm.
    destruct (result (run tr (invoke self m) w)) as [e | v]; cbn [calls map].
    + rewrite Hm. apply (prefix_cons (command m)), prefix_nil.
    + rewrite asked_app, Hm. apply (prefix_cons (command m)), IH.
Qed.

(** X14. A sequence of method calls that returns has sent exactly the
    commands of its calls in order, has made one read per call, and hands
    back one result per call. *)
Theorem session_completed self ms w vs :
  result (run tr (session self ms) w) = inr vs →
  asked (calls (run tr (session self ms) w)) = map command ms
  ∧ reads (calls (run tr (session self ms) w)) = replicate (length ms) LF
  ∧ length vs = length ms.
Proof.
  revert w vs. induction ms as [| m ms IH]; intros w vs.
  - cbn. by intros [= <-].
  - rewrite run_session_cons. cbv zeta.
    destruct (result (run tr (invoke self m) w)) as [e | v] eqn:Hres; [done|].
    pose proof (calls_of_returning_invoke self m w v Hres) as Hcalls.
    cbn [result calls].
    destruct (result (run tr (session self ms) _)) as [e | vs'] eqn:Hrest; [done|].
    intros [= <-].
    destruct (IH _ _ Hrest) as (Hasked & Hreads & Hlen).
    rewrite asked_app, reads_app, Hasked, Hreads, Hcalls.
    cbn. by rewrite Hlen.
Qed.

(** X13. A sequence of method calls on one handle that raises ends with
    the call that raised: the calls before it all returned, the calls on
    the transport are theirs followed by those of the raising call, and the
    commands sent are exactly those of the calls up to and including it.
    Nothing is sent, read or changed after a call raised, and the exception
    that comes out is the one of that call. *)
Theorem session_stops_at_exception self ms w e :
  result (run tr (session self ms) w) = inl e →
  ∃ n m,
    ms !! n = Some m
    ∧ let before := run tr (session self (take n ms)) w in
      let last := run tr (invoke self m) (final before) in
      (∃ vs, result before = inr vs ∧ length vs = n)
      ∧ result last = inl e
      ∧ calls (run tr (session self ms) w) = (calls before ++ calls last)%list
      ∧ final (run tr (session self ms) w) = final last
      ∧ asked (calls (run tr (session self ms) w)) = map command (take (S n) ms).
Proof.
  revert w. induction ms as [| m ms IH]; intros w; [done|].
  rewrite run_session_cons. cbv zeta.
  destruct (result (run tr (invoke self m) w)) as [e1 | v] eqn:Hfirst.
  - cbn [result calls final]. intros [= <-].
    exists 0, m. cbn [take session run final calls result lookup list_lookup app].
    split_and!; try done; [by exists [] |].
    cbn [map]. apply asked_invoke.
  - cbn [result calls final].
    destruct (result (run tr (session self ms) _)) as [e2 | vs] eqn:Hrest; [|done].
    intros [= <-].
    destruct (IH _ Hrest) as (n & m' & Hm' & (vs & Hvs & Hlen) & Hlast & Hcalls & Hfinal & Hasked).
    exists (S n), m'. split; [done|]. cbv zeta.
    change (take (S n) (m :: ms)) with (m :: take n ms).
    rewrite run_session_cons. cbv zeta. rewrite Hfirst, Hvs. cbn [result calls final].
    split_and!; try done.
    + exists (v :: vs). by rewrite <- Hlen.
    + by rewrite Hcalls, app_assoc.
    + rewrite asked_app, Hasked, (asked_invoke tr self m w). reflexivity.
Qed.

End Sessions.

Lemma session_stops_at_exception_witness :
  let ms := [TurnOn; IsOn; TurnOff] in
  let w := Scripted.script ["0"; "on"; "0"] in
  let o := run Scripted.laser (session laser0 ms) w in
  result o = inl (KeyError (PyStr "on"))
  ∧ asked (calls o) = ["(param-set! laser:en #t)"; "(param-ref laser:en)"]
  ∧ final o = Scripted.World ["(param-set! laser:en #t)"; "(param-ref laser:en)"] ["0"]
  ∧ ∃ n m, [TurnOn; IsOn; TurnOff] !! n = Some m
           ∧ asked (calls o) = map command (take (S n) [TurnOn; IsOn; TurnOff]).
Proof.
  cbv zeta. split; [reflexivity|]. split; [reflexivity|]. split; [reflexivity|].
  destruct (session_stops_at_exception Scripted.laser laser0 [TurnOn; IsOn; TurnOff]
              (Scripted.script ["0"; "on"; "0"]) (KeyError (PyStr "on")) eq_refl)
    as (n & m & Hm & _ & _ & _ & _ & Hasked).
  exists n, m. split; [exact Hm | exact Hasked].
Defined.

Lemma session_completed_witness :
  let ms := [TurnOn; IsOn; TurnOff] in
  let w := Scripted.script ["0"; "#t"; "7: interlock"] in
  result (run Scripted.laser (session laser0 ms) w)
    = inr [PyInt 0; PyBool true; PyStr "7: interlock"]
  ∧ asked (calls (run Scripted.laser (session laser0 ms) w))
      = ["(param-set! laser:en #t)"; "(param-ref laser:en)"; "(param-set! laser:en #f)"].
Proof.
  split; [reflexivity|].
  exact (proj1 (session_completed Scripted.laser laser0 [TurnOn; IsOn; TurnOff]
                  (Scripted.script ["0"; "#t"; "7: interlock"])
                  [PyInt 0; PyBool true; PyStr "7: interlock"] eq_refl)).
Defined.

(** ** Concrete runs of the properties above *)

Lemma ask_exception_propagates_witness :
  let unplugged : transport Scripted.world :=
    Transport Scripted.open (λ _ _ w, (inl (VisaIOError "write failed"), w))
      Scripted.read Scripted.close in
  run unplugged (invoke laser0 TurnOn) (Scripted.script ["0"])
    = Outcome [EvAsk 0 "(param-set! laser:en #t)"] (inl (VisaIOError "write failed"))
        (Scripted.script ["0"]).
Proof.
  exact (ask_exception_propagates
           (Transport Scripted.open (λ _ _ w, (inl (VisaIOError "write failed"), w))
              Scripted.read Scripted.close)
           laser0 TurnOn (Scripted.script ["0"]) (VisaIOError "write failed")
           (Scripted.script ["0"]) eq_refl).
Defined.

Lemma read_exception_propagates_witness :
  run Scripted.laser (invoke laser0 IsControlOn) (Scripted.script [])
    = Outcome [EvAsk 0 "(param-ref hw-input-dis)"; EvRead 0 LF]
        (inl (VisaIOError "timeout")) (Scripted.World ["(param-ref hw-input-dis)"] []).
Proof.
  exact (read_exception_propagates Scripted.laser laser0 IsControlOn (Scripted.script [])
           EmptyString (Scripted.World ["(param-ref hw-input-dis)"] [])
           (VisaIOError "timeout") (Scripted.World ["(param-ref hw-input-dis)"] [])
           eq_refl eq_refl).
Defined.

Lemma mutating_result_shape_witness :
  result (run Scripted.laser (invoke laser0 TurnOff) (Scripted.script ["00"]))
    = inr (PyStr "00")
  ∧ (PyStr "00" = PyInt 0 ∨ ∃ s, PyStr "00" = PyStr s ∧ s ≠ "0").
Proof.
  split; [reflexivity|].
  exact (mutating_result_shape Scripted.laser laser0 TurnOff (Scripted.script ["00"])
           (PyStr "00") eq_refl eq_refl).
Defined.

Lemma query_result_shape_witness :
  result (run Scripted.laser (invoke laser0 IsOn) (Scripted.script ["#f"]))
    = inr (PyBool false)
  ∧ ∃ b, PyBool false = PyBool b.
Proof.
  split; [reflexivity|].
  exact (proj1 (query_result_shape Scripted.laser laser0 IsOn (Scripted.script ["#f"])
                  (PyBool false) eq_refl eq_refl)).
Defined.

Lemma ask_returns_line_witness :
  result (run Scripted.laser (FemtoFiber._ask laser0 "(param-ref serial)" false)
            (Scripted.script ["0"])) = inr (PyStr "0")
  ∧ result (run Scripted.laser (FemtoFiber._ask laser0 "(param-ref serial)" true)
              (Scripted.script ["0"])) = inr (PyInt 0).
Proof.
  split.
  - exact (ask_returns_line Scripted.laser laser0 "(param-ref serial)" false
             (Scripted.script ["0"]) EmptyString
             (Scripted.World ["(param-ref serial)"] ["0"]) "0"
             (Scripted.World ["(param-ref serial)"] []) eq_refl eq_refl).
  - exact (ask_returns_line Scripted.laser laser0 "(param-ref serial)" true
             (Scripted.script ["0"]) EmptyString
             (Scripted.World ["(param-ref serial)"] ["0"]) "0"
             (Scripted.World ["(param-ref serial)"] []) eq_refl eq_refl).
Defined.
